(** * WindMouse: the trajectory generator of [core.py] and the controllers' [tick]

    A shallow embedding of [wind_mouse] (core.py) and of the [tick] methods of
    [PyautoguiMouseController] and [AHKMouseController].

    Numbers are the program's: Python/NumPy [float64] values are Rocq's
    primitive binary64 floats, Python [int]s are [Z].  The global NumPy random
    source is an explicit stream of draws with a cursor. *)

From Stdlib Require Import String.
From Stdlib Require Import ZArith Lia List Bool.
From Stdlib Require Import Floats.
Import ListNotations.

(* ===================================================================== *)
(** * Numbers *)
(* ===================================================================== *)

(** [float(z)] for a Python [int]: round to the nearest binary64, ties to even.
    Exact for every integer of magnitude up to [2^53], which covers pixel
    coordinates. *)
Definition float_of_int (z : Z) : float :=
  SF2Prim (binary_normalize prec emax z 0 false).

(** Round the dyadic [m * 2^e] (with [m > 0]) to the nearest integer, ties to
    even: what [np.round] does on one float64. *)
Definition round_half_even (m : positive) (e : Z) : Z :=
  if (0 <=? e)%Z then (Zpos m * 2 ^ e)%Z
  else
    let d := (2 ^ (- e))%Z in
    let q := (Zpos m / d)%Z in
    let r := (Zpos m mod d)%Z in
    if (2 * r <? d)%Z then q
    else if (d <? 2 * r)%Z then (q + 1)%Z
    else if Z.even q then q else (q + 1)%Z.

(** The exceptions [int()] raises on a float that is not finite. *)
Inductive exn : Type :=
| ValueError      (* cannot convert float NaN to integer *)
| OverflowError.  (* cannot convert float infinity to integer *)

(** [int(np.round(x))]. *)
Definition int_round (x : float) : exn + Z :=
  match Prim2SF x with
  | S754_nan => inl ValueError
  | S754_infinity _ => inl OverflowError
  | S754_zero _ => inr 0%Z
  | S754_finite s m e =>
      let a := round_half_even m e in inr (if s then (- a)%Z else a)
  end.

(** [x == z] for a float64 [x] and an [int] [z]: equality of the two values.
    True exactly when [x] is finite, integral and equal to [z]. *)
Definition float_eq_int (x : float) (z : Z) : bool :=
  match Prim2SF x with
  | S754_nan | S754_infinity _ => false
  | S754_zero _ => (z =? 0)%Z
  | S754_finite s m e =>
      if (0 <=? e)%Z
      then ((if s then - (Zpos m * 2 ^ e) else Zpos m * 2 ^ e) =? z)%Z
      else
        let d := (2 ^ (- e))%Z in
        ((Zpos m mod d =? 0) && ((if s then - (Zpos m / d) else Zpos m / d) =? z))%Z
  end.

(** A Python number held by a local of [wind_mouse]: the position starts as the
    [int] arguments and becomes a float64 at the first [+=]. *)
Inductive number : Type :=
| Int (z : Z)
| Float (f : float).

Definition to_float (n : number) : float :=
  match n with
  | Int z => float_of_int z
  | Float f => f
  end.

(** [d - n] for an [int] [d]: exact on two ints, float64 subtraction otherwise. *)
Definition int_sub (d : Z) (n : number) : number :=
  match n with
  | Int z => Int (d - z)
  | Float f => Float (float_of_int d - f)
  end.

(** [n == z] for an [int] [z]. *)
Definition number_eq_int (n : number) (z : Z) : bool :=
  match n with
  | Int c => (c =? z)%Z
  | Float f => float_eq_int f z
  end.

Open Scope float_scope.

(** [np.hypot] on float64: the Euclidean norm, computed as [sqrt (x*x + y*y)].
    The C library's [hypot] behind NumPy's agrees with this up to the last bit
    and away from overflow, and exactly when one argument is zero. *)
Definition hypot (x y : float) : float := sqrt (x * x + y * y).

(** [np.sqrt(3)] and [np.sqrt(5)], the module constants. *)
Definition sqrt3 : float := sqrt 3.
Definition sqrt5 : float := sqrt 5.

(** Python's builtin [min(a, b)]: [b] when [b < a], else [a]. *)
Definition py_min (a b : float) : float := if b <? a then b else a.

(* ===================================================================== *)
(** * The generator [wind_mouse] *)
(* ===================================================================== *)

(** A pair of [Coordinate]s, as yielded. *)
Definition point : Type := (Z * Z)%type.

(** The locals of one [wind_mouse] generator.  The four physical parameters are
    locals like the rest ([max_step] is reassigned by the body). *)
Record frame : Type := {
  start_x : number;
  start_y : number;
  dest_x : Z;
  dest_y : Z;
  gravity_magnitude : float;
  wind_magnitude : float;
  max_step : float;
  damped_distance : float;
  current_x : number;
  current_y : number;
  velocity_x : float;
  velocity_y : float;
  wind_x : float;
  wind_y : float
}.

(** A generator object: suspended with its locals (just created, or stopped at
    the [yield]; both resume at the loop test), or closed after it returned or
    raised. *)
Inductive generator : Type :=
| Suspended (fr : frame)
| Closed.

(** Calling [wind_mouse(...)]: Python builds the generator object and runs no
    line of the body.  Lines 37-38 run at the first [next], before the first
    loop test; they only copy the arguments, so the frame below is the state in
    which the first loop test is evaluated. *)
Definition wind_mouse (sx sy dx dy : Z)
    (gravity wind maxstep damped : float) : generator :=
  Suspended {|
    start_x := Int sx; start_y := Int sy;
    dest_x := dx; dest_y := dy;
    gravity_magnitude := gravity; wind_magnitude := wind;
    max_step := maxstep; damped_distance := damped;
    current_x := Int sx; current_y := Int sy;
    velocity_x := 0; velocity_y := 0; wind_x := 0; wind_y := 0 |}.

(** The defaults of the signature: gravity 9, wind 3, max_step 15, damped 12. *)
Definition wind_mouse_default (sx sy dx dy : Z) : generator :=
  wind_mouse sx sy dx dy 9 3 15 12.

(** [np.hypot(dest_x - start_x, dest_y - start_y)], the walrus of the loop test. *)
Definition dist (fr : frame) : float :=
  hypot (to_float (int_sub (dest_x fr) (start_x fr)))
        (to_float (int_sub (dest_y fr) (start_y fr))).

(** The loop test [dist >= 1]. *)
Definition keeps_going (fr : frame) : bool := 1 <=? dist fr.

(** What one pass through the loop body does. *)
Inductive pass : Type :=
| Emitted (p : point) (fr : frame) (k : nat)   (* reached the [yield] *)
| Silent (fr : frame) (k : nat)                (* fell through the last [if] *)
| Raised (e : exn).                            (* [int()] raised *)

Section Draws.

(** [np.random.random()]: the [k]-th call returns [draws k]. *)
Variable draws : nat -> float.

(** Lines 40-56: the wind update and the braking of [max_step].  Returns the
    new wind, the new [max_step] and the cursor in the stream of draws. *)
Definition blow (fr : frame) (d : float) (k : nat)
  : float * float * float * nat :=
  let wind_magnitude_current := py_min (wind_magnitude fr) d in
  if damped_distance fr <=? d then
    let wx := wind_x fr / sqrt3
              + (2 * draws k - 1) * wind_magnitude_current / sqrt5 in
    let wy := wind_y fr / sqrt3
              + (2 * draws (S k) - 1) * wind_magnitude_current / sqrt5 in
    (wx, wy, max_step fr, S (S k))
  else
    let wx := wind_x fr / sqrt3 in
    let wy := wind_y fr / sqrt3 in
    if max_step fr <? 3
    then (wx, wy, draws k * 3 + 3, S k)
    else (wx, wy, max_step fr / sqrt5, k).

(** Lines 57-58: gravity and wind added to the velocity. *)
Definition accelerate (fr : frame) (d wx wy : float) : float * float :=
  (velocity_x fr
     + (wx + gravity_magnitude fr
             * to_float (int_sub (dest_x fr) (start_x fr)) / d),
   velocity_y fr
     + (wy + gravity_magnitude fr
             * to_float (int_sub (dest_y fr) (start_y fr)) / d)).

(** Lines 59-63: the clip of a velocity longer than [max_step]. *)
Definition clip (ms : float) (v : float * float) (k : nat)
  : float * float * nat :=
  let velocity_magnitude := hypot (fst v) (snd v) in
  if ms <? velocity_magnitude then
    let velocity_clip := ms / 2 + draws k * ms / 2 in
    ((fst v / velocity_magnitude) * velocity_clip,
     (snd v / velocity_magnitude) * velocity_clip,
     S k)
  else (fst v, snd v, k).

(** Lines 40-70: one pass through the loop body, entered with the loop test
    already passed. *)
Definition body (fr : frame) (k : nat) : pass :=
  let d := dist fr in
  let '(wx, wy, ms, k1) := blow fr d k in
  let '(vx, vy, k2) := clip ms (accelerate fr d wx wy) k1 in
  let sx := to_float (start_x fr) + vx in
  let sy := to_float (start_y fr) + vy in
  match int_round sx with
  | inl e => Raised e
  | inr move_x =>
      match int_round sy with
      | inl e => Raised e
      | inr move_y =>
          let moved (cx cy : number) :=
            {| start_x := Float sx; start_y := Float sy;
               dest_x := dest_x fr; dest_y := dest_y fr;
               gravity_magnitude := gravity_magnitude fr;
               wind_magnitude := wind_magnitude fr;
               max_step := ms;
               damped_distance := damped_distance fr;
               current_x := cx; current_y := cy;
               velocity_x := vx; velocity_y := vy;
               wind_x := wx; wind_y := wy |} in
          if negb (number_eq_int (current_x fr) move_x)
             || negb (number_eq_int (current_y fr) move_y)
          then Emitted (move_x, move_y) (moved (Float sx) (Float sy)) k2
          else Silent (moved (current_x fr) (current_y fr)) k2
      end
  end.

(** The result of [next(gen)]. *)
Inductive resumption : Type :=
| Yield (p : point) (g : generator) (k : nat)
| StopIteration (fr : frame) (k : nat)   (* the loop test failed; [fr] is the
                                            frame the generator ended in *)
| Exhausted (k : nat)                    (* [next] on a closed generator *)
| Throw (e : exn)
| OutOfFuel.

(** The [while] loop from the loop test to the next [yield], for at most [fuel]
    passes of the body. *)
Fixpoint resume (fuel : nat) (fr : frame) (k : nat) : resumption :=
  if keeps_going fr then
    match fuel with
    | O => OutOfFuel
    | S fuel' =>
        match body fr k with
        | Emitted p fr' k' => Yield p (Suspended fr') k'
        | Silent fr' k' => resume fuel' fr' k'
        | Raised e => Throw e
        end
    end
  else StopIteration fr k.

Definition next (fuel : nat) (g : generator) (k : nat) : resumption :=
  match g with
  | Suspended fr => resume fuel fr k
  | Closed => Exhausted k
  end.

(** How a whole run of the loop ends. *)
Inductive ending : Type :=
| Returned (fr : frame) (k : nat)
| Failed (e : exn)
| Unfinished (fr : frame) (k : nat)
| Drained (k : nat).                     (* the generator was closed already *)

(** [list(gen)]: every yielded point in order, for at most [fuel] passes of the
    body, and how the run ended. *)
Fixpoint run (fuel : nat) (fr : frame) (k : nat) : list point * ending :=
  if keeps_going fr then
    match fuel with
    | O => ([], Unfinished fr k)
    | S fuel' =>
        match body fr k with
        | Emitted p fr' k' =>
            let '(ps, e) := run fuel' fr' k' in (p :: ps, e)
        | Silent fr' k' => run fuel' fr' k'
        | Raised e => ([], Failed e)
        end
    end
  else ([], Returned fr k).

Definition collect (fuel : nat) (g : generator) (k : nat) : list point * ending :=
  match g with
  | Suspended fr => run fuel fr k
  | Closed => ([], Drained k)
  end.

End Draws.

(* ===================================================================== *)
(** * The controllers *)
(* ===================================================================== *)

(** One call into a platform bridge. *)
Inductive call : Type :=
| PyautoguiMoveTo (x y : Z) (duration : float)  (* pyautogui.moveTo(x, y, duration=..) *)
| PyautoguiPosition                             (* pyautogui.position() *)
| AhkMouseMove (x y : Z) (speed : float)        (* ahk.mouse_move(x, y, speed=.., coord_mode="Screen") *)
| AhkGetMousePosition.                          (* ahk.get_mouse_position(coord_mode="Screen") *)

Definition is_move (c : call) : bool :=
  match c with
  | PyautoguiMoveTo _ _ _ | AhkMouseMove _ _ _ => true
  | PyautoguiPosition | AhkGetMousePosition => false
  end.

(** The two leaf classes of [AbstractMouseController]. *)
Inductive backend : Type := Pyautogui | Ahk.

(** The move primitive [tick] calls. *)
Definition move_to (b : backend) : Z -> Z -> float -> call :=
  match b with
  | Pyautogui => PyautoguiMoveTo
  | Ahk => AhkMouseMove
  end.

(** The query behind [_get_current_mouse_x] and [_get_current_mouse_y]. *)
Definition position (b : backend) : call :=
  match b with
  | Pyautogui => PyautoguiPosition
  | Ahk => AhkGetMousePosition
  end.


(** Everything outside the controller object: where the pointer is, the calls
    made into the bridge so far (oldest first), and how many draws the global
    random source has handed out. *)
Record world : Type := {
  pointer : point;
  calls : list call;
  cursor : nat
}.

(** Modelled from the spec: the fields of the controller, whose class body
    ([AbstractMouseController.__init__] and [_get_next_point] of the release
    the two leaf classes import) is absent from core.py as given.  The spec's
    ControllerState: the target, optionally unset; the explicit start, each
    axis optional; the four parameters; the handle to the live generator of the
    current target, created lazily; the last point yielded. *)
Record controller : Type := {
  ctl_start_x : option Z;
  ctl_start_y : option Z;
  ctl_dest_x : option Z;
  ctl_dest_y : option Z;
  ctl_gravity_magnitude : float;
  ctl_wind_magnitude : float;
  ctl_max_step : float;
  ctl_damped_distance : float;
  ctl_generator : option generator;
  ctl_last : option point
}.

(** Modelled from the spec: constructing a controller fixes start and
    destination and builds no generator yet. *)
Definition new_controller (sx sy dx dy : option Z)
    (gravity wind maxstep damped : float) : controller :=
  {| ctl_start_x := sx; ctl_start_y := sy; ctl_dest_x := dx; ctl_dest_y := dy;
     ctl_gravity_magnitude := gravity; ctl_wind_magnitude := wind;
     ctl_max_step := maxstep; ctl_damped_distance := damped;
     ctl_generator := None; ctl_last := None |}.

(** Modelled from the spec: the three states of the controller. *)
Inductive phase : Type := Idle | HasTarget | Done.

Definition phase_of (c : controller) : phase :=
  match ctl_dest_x c, ctl_dest_y c with
  | Some _, Some _ =>
      match ctl_generator c with
      | Some Closed => Done
      | _ => HasTarget
      end
  | _, _ => Idle
  end.

(** The outcome of a method that may raise or never return. *)
Inductive outcome (A : Type) : Type :=
| Ret (a : A)
| Err (e : exn)
| Hang.

Arguments Ret {A} a.
Arguments Err {A} e.
Arguments Hang {A}.

Definition with_generator (c : controller) (g : generator) (last : option point)
  : controller :=
  {| ctl_start_x := ctl_start_x c; ctl_start_y := ctl_start_y c;
     ctl_dest_x := ctl_dest_x c; ctl_dest_y := ctl_dest_y c;
     ctl_gravity_magnitude := ctl_gravity_magnitude c;
     ctl_wind_magnitude := ctl_wind_magnitude c;
     ctl_max_step := ctl_max_step c;
     ctl_damped_distance := ctl_damped_distance c;
     ctl_generator := Some g; ctl_last := last |}.

Definition log (w : world) (cs : list call) (k : nat) : world :=
  {| pointer := pointer w; calls := calls w ++ cs; cursor := k |}.

Section Controller.

Variable draws : nat -> float.
Variable b : backend.

(** Modelled from the spec: start position resolution.  An axis given at
    construction is used as it is; an unset one is asked of the bridge at the
    moment the generator is built. *)
Definition resolve_start (c : controller) (w : world) : Z * Z * list call :=
  let '(x, qx) := match ctl_start_x c with
                  | Some x => (x, [])
                  | None => (fst (pointer w), [position b])
                  end in
  let '(y, qy) := match ctl_start_y c with
                  | Some y => (y, [])
                  | None => (snd (pointer w), [position b])
                  end in
  (x, y, qx ++ qy).

(** Modelled from the spec: the generator of the current target.  None while
    no target is set; the live one if there is one; otherwise a new one, built
    from the resolved start, with the queries that took. *)
Definition ensure_generator (c : controller) (w : world)
  : option (generator * list call) :=
  match ctl_dest_x c, ctl_dest_y c with
  | Some dx, Some dy =>
      match ctl_generator c with
      | Some g => Some (g, [])
      | None =>
          let '(sx, sy, qs) := resolve_start c w in
          Some (wind_mouse sx sy dx dy (ctl_gravity_magnitude c)
                  (ctl_wind_magnitude c) (ctl_max_step c)
                  (ctl_damped_distance c),
                qs)
      end
  | _, _ => None
  end.

(** Modelled from the spec: [_get_next_point], absent from core.py as given.
    With no target it answers [None] at once.  Otherwise it pulls one point
    from the generator of the current target and answers the point, or [None]
    once the generator is exhausted, which it then stays. *)
Definition get_next_point (fuel : nat) (c : controller) (w : world)
  : outcome (option point * controller * world) :=
  match ensure_generator c w with
  | Some (g, qs) =>
      match next draws fuel g (cursor w) with
      | Yield p g' k => Ret (Some p, with_generator c g' (Some p), log w qs k)
      | StopIteration _ k | Exhausted k =>
          Ret (None, with_generator c Closed (ctl_last c), log w qs k)
      | Throw e => Err e
      | OutOfFuel => Hang
      end
  | None => Ret (None, c, w)
  end.

(** [tick] of both leaf classes (pyautogui_controller.py 15-20,
    ahk_controller.py 49-54): they differ in the move primitive and in the
    default [step_duration], both taken from [b]. *)
Definition tick (step_duration : float) (fuel : nat) (c : controller) (w : world)
  : outcome (bool * controller * world) :=
  match get_next_point fuel c w with
  | Ret (None, c', w') => Ret (false, c', w')
  | Ret (Some (x, y), c', w') =>
      Ret (true, c',
           {| pointer := (x, y);
              calls := calls w' ++ [move_to b x y step_duration];
              cursor := cursor w' |})
  | Err e => Err e
  | Hang => Hang
  end.

(** [n] calls of [tick] in a row; the answers, oldest first. *)
Fixpoint ticks (step_duration : float) (fuel : nat) (n : nat)
    (c : controller) (w : world) : outcome (list bool * controller * world) :=
  match n with
  | O => Ret ([], c, w)
  | S n' =>
      match tick step_duration fuel c w with
      | Ret (r, c', w') =>
          match ticks step_duration fuel n' c' w' with
          | Ret (rs, c'', w'') => Ret (r :: rs, c'', w'')
          | Err e => Err e
          | Hang => Hang
          end
      | Err e => Err e
      | Hang => Hang
      end
  end.

End Controller.



(* ===================================================================== *)
(** * Vocabulary of the statements *)
(* ===================================================================== *)

(** The frame and cursor a pass leaves behind, when it did not raise. *)
Definition after (p : pass) : option (frame * nat) :=
  match p with
  | Emitted _ fr k | Silent fr k => Some (fr, k)
  | Raised _ => None
  end.

(** [reaches draws fr k fr' k']: from the loop test in frame [fr] with cursor
    [k], some number of passes of the body, each entered with the loop test
    passed, leads to the loop test in frame [fr'] with cursor [k']. *)
Inductive reaches (draws : nat -> float)
  : frame -> nat -> frame -> nat -> Prop :=
| reaches_here (fr : frame) (k : nat) : reaches draws fr k fr k
| reaches_pass (fr fr1 fr2 : frame) (k k1 k2 : nat) :
    keeps_going fr = true ->
    after (body draws fr k) = Some (fr1, k1) ->
    reaches draws fr1 k1 fr2 k2 ->
    reaches draws fr k fr2 k2.

(** [fr] has yielded [p] last: the position and the stored [current_x],
    [current_y] are floats that round to [p]. *)
Definition rounds_to (fr : frame) (p : point) : Prop :=
  exists sx sy cx cy,
    start_x fr = Float sx /\ start_y fr = Float sy /\
    current_x fr = Float cx /\ current_y fr = Float cy /\
    int_round sx = inr (fst p) /\ int_round sy = inr (snd p) /\
    int_round cx = inr (fst p) /\ int_round cy = inr (snd p).

(** Squared Euclidean distance between two pixels, exact on integers. *)
Definition sq_distance (p q : point) : Z :=
  ((fst p - fst q) * (fst p - fst q) + (snd p - snd q) * (snd p - snd q))%Z.

(** Two equal neighbours somewhere in a list of points. *)
Fixpoint has_repeat (ps : list point) : bool :=
  match ps with
  | p :: (q :: _) as rest =>
      ((fst p =? fst q)%Z && (snd p =? snd q)%Z) || has_repeat rest
  | _ => false
  end.

(* ===================================================================== *)
(** * Vocabulary for errors, any helper and the buttons *)
(* ===================================================================== *)

(** A float whose value is an integer: the only floats an [int] can equal. *)
Definition integral (x : float) : bool :=
  match int_round x with
  | inr z => float_eq_int x z
  | inl _ => false
  end.

(** Lines 40-65 of one pass: the position [start_x], [start_y] the pass moves
    to, before line 66 rounds it. *)
Definition landing (draws : nat -> float) (fr : frame) (k : nat) : float * float :=
  let '(wx, wy, ms, k1) := blow draws fr (dist fr) k in
  let '(vx, vy, _) := clip draws ms (accelerate fr (dist fr) wx wy) k1 in
  (to_float (start_x fr) + vx, to_float (start_y fr) + vy).


(** How many of the answers of [tick] were [True]. *)
Definition trues (rs : list bool) : nat := length (filter (fun r => r) rs).

(** The move calls among the calls made. *)
Definition moves (w : world) : list call := filter is_move (calls w).

Section AnyHelper.

(** [tick] over any [_get_next_point]: the controller object is a [state] and
    the helper, whose body is not in core.py as given, is the parameter
    [get_next].  Lines 15-20 of pyautogui_controller.py and 49-54 of
    ahk_controller.py. *)
Variable state : Type.
Variable get_next : state -> world -> outcome (option point * state * world).
Variable b : backend.

Definition tick_over (step_duration : float) (c : state) (w : world)
  : outcome (bool * state * world) :=
  match get_next c w with
  | Ret (None, c', w') => Ret (false, c', w')
  | Ret (Some (x, y), c', w') =>
      Ret (true, c',
           {| pointer := (x, y);
              calls := calls w' ++ [move_to b x y step_duration];
              cursor := cursor w' |})
  | Err e => Err e
  | Hang => Hang
  end.

(** [n] calls of [tick_over] in a row, stopping at the first that raises or
    does not return. *)
Fixpoint ticks_over (step_duration : float) (n : nat) (c : state) (w : world)
  : outcome (list bool * state * world) :=
  match n with
  | O => Ret ([], c, w)
  | S n' =>
      match tick_over step_duration c w with
      | Ret (r, c', w') =>
          match ticks_over step_duration n' c' w' with
          | Ret (rs, c'', w'') => Ret (r :: rs, c'', w'')
          | Err e => Err e
          | Hang => Hang
          end
      | Err e => Err e
      | Hang => Hang
      end
  end.

End AnyHelper.

(** The members of [HoldMouseButton] the two leaf classes match on
    (pyautogui_controller.py 30-34 and 39-43). *)
Inductive HoldMouseButton : Type := LEFT | RIGHT | MIDDLE.

(** One call into a platform bridge that presses or lets go of a button. *)
Inductive button_call (V : Type) : Type :=
| PyautoguiMouseDown (button : String.string) (* pyautogui.mouseDown(button=..) *)
| PyautoguiMouseUp (button : String.string)   (* pyautogui.mouseUp(button=..) *)
| AhkClick (button : V) (direction : String.string). (* ahk.click(button=.., direction=..) *)

Arguments PyautoguiMouseDown {V} button.
Arguments PyautoguiMouseUp {V} button.
Arguments AhkClick {V} button direction.

(** [PyautoguiMouseController._hold_mouse_button] and
    [_release_mouse_button] (pyautogui_controller.py 28-44): the calls made. *)
Definition pyautogui_hold_mouse_button {V : Type} (button : HoldMouseButton)
  : list (button_call V) :=
  match button with
  | LEFT => [PyautoguiMouseDown "left"]
  | RIGHT => [PyautoguiMouseDown "right"]
  | MIDDLE => [PyautoguiMouseDown "middle"]
  end.

Definition pyautogui_release_mouse_button {V : Type} (button : HoldMouseButton)
  : list (button_call V) :=
  match button with
  | LEFT => [PyautoguiMouseUp "left"]
  | RIGHT => [PyautoguiMouseUp "right"]
  | MIDDLE => [PyautoguiMouseUp "middle"]
  end.

Section AhkButtons.

(** [button.value]: the enum's values are not in core.py as given, so they are
    a parameter, of any type with a decidable equality. *)
Variable V : Type.
Variable value : HoldMouseButton -> V.

(** [AHKMouseController._hold_mouse_button] and [_release_mouse_button]
    (ahk_controller.py 62-66). *)
Definition ahk_hold_mouse_button (button : HoldMouseButton) : list (button_call V) :=
  [AhkClick (value button) "D"].

Definition ahk_release_mouse_button (button : HoldMouseButton) : list (button_call V) :=
  [AhkClick (value button) "U"].

End AhkButtons.

(** The button a call names: pyautogui's by its string, AHK's by its value. *)
Inductive key (V : Type) : Type :=
| PyautoguiButton (name : String.string)
| AhkButton (v : V).

Arguments PyautoguiButton {V} name.
Arguments AhkButton {V} v.

(** What a call does to the buttons held down: [Some (key, true)] presses,
    [Some (key, false)] lets go, [None] is a call that does neither (an AHK
    click with a direction other than "D" and "U"). *)
Definition effect {V : Type} (c : button_call V) : option (key V * bool) :=
  match c with
  | PyautoguiMouseDown s => Some (PyautoguiButton s, true)
  | PyautoguiMouseUp s => Some (PyautoguiButton s, false)
  | AhkClick v d =>
      if String.eqb d "D" then Some (AhkButton v, true)
      else if String.eqb d "U" then Some (AhkButton v, false)
      else None
  end.

(** The name pyautogui is given for each button. *)
Definition pyautogui_name (button : HoldMouseButton) : string :=
  match button with
  | LEFT => "left"
  | RIGHT => "right"
  | MIDDLE => "middle"
  end.

Section Held.

Variable V : Type.
Variable V_eq_dec : forall x y : V, {x = y} + {x <> y}.

Definition key_eqb (p q : key V) : bool :=
  match p, q with
  | PyautoguiButton s, PyautoguiButton t => String.eqb s t
  | AhkButton v, AhkButton u => if V_eq_dec v u then true else false
  | _, _ => false
  end.

(** Whether the button [q] is down after the calls [t], oldest first, given
    that it was down ([h]) or up before them. *)
Definition held (h : bool) (t : list (button_call V)) (q : key V) : bool :=
  fold_left
    (fun h c =>
       match effect c with
       | Some (q', down) => if key_eqb q' q then down else h
       | None => h
       end)
    t h.

End Held.

(* ===================================================================== *)
(** * Sample inputs *)
(* ===================================================================== *)


(** A frame 10 pixels from the destination with [max_step] already below 3 and
    some wind left: in the damped regime, due for a fresh [max_step]. *)
Definition near_frame : frame :=
  {| start_x := Float 90; start_y := Float 0; dest_x := 100; dest_y := 0;
     gravity_magnitude := 9; wind_magnitude := 3; max_step := 2;
     damped_distance := 12; current_x := Float 90; current_y := Float 0;
     velocity_x := 1; velocity_y := 0.5; wind_x := 0.75; wind_y := -0.25 |}.

(** A random source that changes after its thirtieth draw. *)
Definition late_change (i : nat) : float :=
  if (i <? 30)%nat then 0.25 else 0.75.

(** A controller sent from (0,0) to (1,0) with [max_step = 16], a controller
    already at its target (5,5), and a world where nothing has happened. *)
Definition short_trip : controller :=
  new_controller (Some 0%Z) (Some 0%Z) (Some 1%Z) (Some 0%Z) 9 3 16 12.


Definition quiet_world : world :=
  {| pointer := (0, 0)%Z; calls := []; cursor := 0 |}.

(** The frame the generator of [short_trip] starts in, and the frame of a
    generator from (0,0) to (100,0) built with a NaN [max_step]. *)
Definition trip_frame : frame :=
  {| start_x := Int 0; start_y := Int 0; dest_x := 1; dest_y := 0;
     gravity_magnitude := 9; wind_magnitude := 3; max_step := 16;
     damped_distance := 12; current_x := Int 0; current_y := Int 0;
     velocity_x := 0; velocity_y := 0; wind_x := 0; wind_y := 0 |}.

Definition unclipped_frame : frame :=
  {| start_x := Int 0; start_y := Int 0; dest_x := 100; dest_y := 0;
     gravity_magnitude := 9; wind_magnitude := 3; max_step := nan;
     damped_distance := 12; current_x := Int 0; current_y := Int 0;
     velocity_x := 0; velocity_y := 0; wind_x := 0; wind_y := 0 |}.

(* ===================================================================== *)
(** * Facts about the numbers *)
(* ===================================================================== *)

Lemma compare_cont_swap (m n : positive) :
  Pos.compare_cont Eq m n = Lt -> Pos.compare_cont Eq n m = Gt.
Proof.
  intros H. change (Pos.compare_cont Eq n m) with (Pos.compare_cont (CompOpp Eq) n m).
  rewrite <- Pos.compare_cont_antisym, H. reflexivity.
Qed.

Lemma compare_cont_swap' (m n : positive) :
  CompOpp (Pos.compare_cont Eq m n) = Lt ->
  CompOpp (Pos.compare_cont Eq n m) = Gt.
Proof.
  intros H. change (Pos.compare_cont Eq n m) with (Pos.compare_cont (CompOpp Eq) n m).
  rewrite <- Pos.compare_cont_antisym.
  destruct (Pos.compare_cont Eq m n); simpl in *; congruence.
Qed.

Lemma SFcompare_swap (x y : spec_float) :
  SFcompare x y = Some Lt -> SFcompare y x = Some Gt.
Proof.
  destruct x as [sx|sx| |sx mx ex], y as [sy|sy| |sy my ey]; simpl;
    try discriminate; try (destruct sx; discriminate);
    try (destruct sy; discriminate);
    try (destruct sx, sy; (discriminate || reflexivity)).
  destruct sx, sy; try discriminate; try reflexivity;
    rewrite (Z.compare_antisym ex ey);
    destruct (ex ?= ey)%Z; simpl; try discriminate; try reflexivity;
    intros H; injection H as H; f_equal.
  - now apply compare_cont_swap'.
  - now apply compare_cont_swap.
Qed.

(** [x < y] rules out [y <= x], NaN included. *)
Lemma ltb_not_leb (x y : float) : (x <? y) = true -> (y <=? x) = false.
Proof.
  rewrite ltb_spec, leb_spec. unfold SFltb, SFleb.
  destruct (SFcompare (Prim2SF x) (Prim2SF y)) as [[| |]|] eqn:E; try discriminate.
  intros _. now rewrite (SFcompare_swap _ _ E).
Qed.

(** A float that equals the int [z] rounds to [z]. *)
Lemma float_eq_int_round (x : float) (z : Z) :
  float_eq_int x z = true -> int_round x = inr z.
Proof.
  unfold float_eq_int, int_round.
  destruct (Prim2SF x) as [s|s| |s m e]; try discriminate.
  - intros H. apply Z.eqb_eq in H. now subst.
  - unfold round_half_even. destruct (0 <=? e)%Z eqn:He.
    + intros H. apply Z.eqb_eq in H. now rewrite <- H.
    + intros H. apply andb_true_iff in H. destruct H as [Hr Hq].
      apply Z.eqb_eq in Hr. apply Z.eqb_eq in Hq. rewrite Hr.
      apply Z.leb_gt in He.
      assert (Hd : (0 < 2 ^ (- e))%Z) by (apply Z.pow_pos_nonneg; lia).
      replace (2 * 0 <? 2 ^ (- e))%Z with true
        by (symmetry; apply Z.ltb_lt; lia).
      now rewrite <- Hq.
Qed.

(* ===================================================================== *)
(** * One pass of the loop body *)
(* ===================================================================== *)

Section Pass.

Variable draws : nat -> float.

(** What a pass that does not raise leaves in the frame: the wind and
    [max_step] of [blow], the velocity of [clip], the position moved by that
    velocity; the destination and the other three parameters as they were. *)
Lemma body_after (fr fr' : frame) (k k' : nat) :
  after (body draws fr k) = Some (fr', k') ->
  exists wx wy ms k1 vx vy,
    blow draws fr (dist fr) k = (wx, wy, ms, k1) /\
    clip draws ms (accelerate fr (dist fr) wx wy) k1 = (vx, vy, k') /\
    wind_x fr' = wx /\ wind_y fr' = wy /\ max_step fr' = ms /\
    velocity_x fr' = vx /\ velocity_y fr' = vy /\
    start_x fr' = Float (to_float (start_x fr) + vx) /\
    start_y fr' = Float (to_float (start_y fr) + vy) /\
    dest_x fr' = dest_x fr /\ dest_y fr' = dest_y fr /\
    gravity_magnitude fr' = gravity_magnitude fr /\
    wind_magnitude fr' = wind_magnitude fr /\
    damped_distance fr' = damped_distance fr.
Proof.
  unfold body.
  destruct (blow draws fr (dist fr) k) as [[[wx wy] ms] k1] eqn:Hb.
  destruct (clip draws ms (accelerate fr (dist fr) wx wy) k1)
    as [[vx vy] k2] eqn:Hc.
  destruct (int_round (to_float (start_x fr) + vx)) as [e|mx]; [discriminate|].
  destruct (int_round (to_float (start_y fr) + vy)) as [e|my]; [discriminate|].
  destruct (negb (number_eq_int (current_x fr) mx)
            || negb (number_eq_int (current_y fr) my));
    simpl; intros H; injection H as <- <-;
    exists wx, wy, ms, k1, vx, vy; simpl; rewrite Hc;
    repeat split; reflexivity.
Qed.

(** The cursor only moves forward, by at most three draws a pass: two for the
    wind or one for [max_step], and one for the clip. *)
Lemma blow_cursor (fr : frame) (d : float) (k : nat) :
  k <= snd (blow draws fr d k) <= k + 2.
Proof.
  unfold blow.
  destruct (damped_distance fr <=? d); [simpl; lia|].
  destruct (max_step fr <? 3); simpl; lia.
Qed.

Lemma clip_cursor (ms : float) (v : float * float) (k : nat) :
  k <= snd (clip draws ms v k) <= k + 1.
Proof.
  unfold clip. destruct (ms <? hypot (fst v) (snd v)); simpl; lia.
Qed.

Lemma body_cursor (fr fr' : frame) (k k' : nat) :
  after (body draws fr k) = Some (fr', k') -> k <= k' <= k + 3.
Proof.
  intros H. apply body_after in H.
  destruct H as (wx & wy & ms & k1 & vx & vy & Hb & Hc & _).
  pose proof (blow_cursor fr (dist fr) k) as H1. rewrite Hb in H1.
  pose proof (clip_cursor ms (accelerate fr (dist fr) wx wy) k1) as H2.
  rewrite Hc in H2. simpl in *. lia.
Qed.

End Pass.

(* ===================================================================== *)
(** * The wind, the braking and the clip *)
(* ===================================================================== *)


(** C7, as the code has it.  In a pass where the distance to the destination
    is below [damped_distance], both wind components are divided by [sqrt3]
    and no draw enters them; [max_step], when below 3, is replaced by
    [draw * 3 + 3] for the next draw of the random source, and is divided by
    [sqrt5] otherwise, without a draw. *)
Theorem damped_regime_braking (draws : nat -> float) (fr fr' : frame) (k k' : nat) :
  (dist fr <? damped_distance fr) = true ->
  after (body draws fr k) = Some (fr', k') ->
  wind_x fr' = wind_x fr / sqrt3 /\
  wind_y fr' = wind_y fr / sqrt3 /\
  (if max_step fr <? 3
   then max_step fr' = draws k * 3 + 3 /\ S k <= k'
   else max_step fr' = max_step fr / sqrt5 /\
        snd (blow draws fr (dist fr) k) = k).
Proof.
  intros Hnear H. apply ltb_not_leb in Hnear.
  pose proof (body_cursor draws fr fr' k k' H) as Hk.
  apply body_after in H.
  destruct H as (wx & wy & ms & k1 & vx & vy & Hb & Hc & Hwx & Hwy & Hms & _).
  pose proof (clip_cursor draws ms (accelerate fr (dist fr) wx wy) k1) as Hk1.
  rewrite Hc in Hk1. simpl in Hk1.
  unfold blow in *. rewrite Hnear in *.
  destruct (max_step fr <? 3); injection Hb as <- <- <- <-;
    repeat split; auto; lia.
Qed.

(** C7 as stated fails at the top of the interval: [np.random.random()] can
    return the largest float below 1, which is 1 - 2^-53, and then
    [draw * 3 + 3] rounds to 6 itself, which is not a value of [3, 6):
    [draw * 3] is 3 - 3 * 2^-53, rounded to the float 3 - 2^-51, and adding 3
    gives 6 - 2^-51, half way between the neighbouring floats 6 - 2^-50 and
    6, which rounds to the even one, 6. *)
Lemma fresh_max_step_reaches_six :
  let top := 0x1.fffffffffffffp-1 in
  (0 <=? top) = true /\ (top <? 1) = true /\
  (dist near_frame <? damped_distance near_frame) = true /\
  (max_step near_frame <? 3) = true /\
  exists fr' k',
    after (body (fun _ => top) near_frame 0) = Some (fr', k') /\
    max_step fr' = 6 /\
    (max_step fr' <? 6) = false.
Proof.
  cbv zeta. repeat (split; [vm_compute; reflexivity|]).
  eexists. eexists. split; [vm_compute; reflexivity|].
  split; vm_compute; reflexivity.
Qed.


(* ===================================================================== *)
(** * The life of a generator *)
(* ===================================================================== *)

Section Life.

Variable draws : nat -> float.

Lemma resume_reaches (fuel : nat) (fr : frame) (k : nat) :
  match resume draws fuel fr k with
  | Yield _ (Suspended fr') k' | StopIteration fr' k' =>
      reaches draws fr k fr' k'
  | _ => True
  end.
Proof.
  revert fr k. induction fuel as [|fuel IH]; intros fr k; simpl.
  - destruct (keeps_going fr); [exact I | constructor].
  - destruct (keeps_going fr) eqn:Hgo; [|constructor].
    destruct (body draws fr k) as [p fr1 k1|fr1 k1|e] eqn:Hb.
    + eapply reaches_pass; [exact Hgo | now rewrite Hb | constructor].
    + specialize (IH fr1 k1).
      destruct (resume draws fuel fr1 k1) as [p [fr2|] k2|fr2 k2|k2|e|];
        try exact I; eapply reaches_pass; eauto; now rewrite Hb.
    + exact I.
Qed.

Lemma run_reaches (fuel : nat) (fr : frame) (k : nat) :
  match snd (run draws fuel fr k) with
  | Returned fr' k' | Unfinished fr' k' => reaches draws fr k fr' k'
  | _ => True
  end.
Proof.
  revert fr k. induction fuel as [|fuel IH]; intros fr k; simpl.
  - destruct (keeps_going fr); constructor.
  - destruct (keeps_going fr) eqn:Hgo; [|constructor].
    destruct (body draws fr k) as [p fr1 k1|fr1 k1|e] eqn:Hb; simpl; auto;
      specialize (IH fr1 k1);
      destruct (run draws fuel fr1 k1) as [ps [fr2 k2|e|fr2 k2|k2]];
      simpl in *; auto; eapply reaches_pass; eauto; now rewrite Hb.
Qed.

(** A run that returned ended in a frame that fails the loop test. *)
Lemma run_returned (fuel : nat) (fr fr' : frame) (k k' : nat) (ps : list point) :
  run draws fuel fr k = (ps, Returned fr' k') -> keeps_going fr' = false.
Proof.
  revert fr k ps. induction fuel as [|fuel IH]; intros fr k ps; simpl.
  - destruct (keeps_going fr) eqn:Hgo; intros H; inversion H; now subst.
  - destruct (keeps_going fr) eqn:Hgo; [|intros H; inversion H; now subst].
    destruct (body draws fr k) as [p fr1 k1|fr1 k1|e]; try discriminate.
    + destruct (run draws fuel fr1 k1) as [ps1 e1] eqn:Hr.
      intros H. inversion H; subst. eapply IH; eauto.
    + apply IH.
Qed.

Lemma reaches_parameters (fr fr' : frame) (k k' : nat) :
  reaches draws fr k fr' k' ->
  gravity_magnitude fr' = gravity_magnitude fr /\
  wind_magnitude fr' = wind_magnitude fr /\
  damped_distance fr' = damped_distance fr /\
  dest_x fr' = dest_x fr /\ dest_y fr' = dest_y fr.
Proof.
  induction 1 as [|fr fr1 fr2 k k1 k2 _ Hb _ IH]; [auto 6|].
  apply body_after in Hb.
  destruct Hb as (wx & wy & ms & j & vx & vy & _ & _ & _ & _ & _ & _ & _ & _
                  & _ & Hdx & Hdy & Hg & Hw & Hd).
  destruct IH as (-> & -> & -> & -> & ->). auto 6.
Qed.

End Life.

(** C10.  Across every pass of the body in a generator's life, from the frame
    [wind_mouse] starts in to any frame it reaches, [gravity_magnitude],
    [wind_magnitude] and [damped_distance] keep the values given at
    construction.  [max_step] does not: the default generator from (0,0) to
    (10,0) leaves its first pass with [max_step] below the 15 it was given. *)
Theorem parameters_kept :
  (forall (draws : nat -> float) (sx sy dx dy : Z)
          (gravity wind maxstep damped : float)
          (fr0 fr' : frame) (k k' : nat),
      wind_mouse sx sy dx dy gravity wind maxstep damped = Suspended fr0 ->
      reaches draws fr0 k fr' k' ->
      gravity_magnitude fr' = gravity /\
      wind_magnitude fr' = wind /\
      damped_distance fr' = damped) /\
  (exists (draws : nat -> float) (fr0 fr' : frame) (k' : nat),
      wind_mouse_default 0 0 10 0 = Suspended fr0 /\
      reaches draws fr0 0 fr' k' /\
      (max_step fr' <? max_step fr0) = true).
Proof.
  split.
  - intros draws sx sy dx dy gravity wind maxstep damped fr0 fr' k k' H0 H.
    apply reaches_parameters in H. destruct H as (Hg & Hw & Hd & _).
    injection H0 as <-. simpl in *. auto.
  - pose (draws := fun _ : nat => 0).
    destruct (wind_mouse_default 0 0 10 0) as [fr0|] eqn:H0; [|discriminate].
    injection H0 as H0.
    destruct (after (body draws fr0 0)) as [[fr1 k1]|] eqn:Hb;
      [|subst fr0; vm_compute in Hb; discriminate].
    exists draws, fr0, fr1, k1. split; [reflexivity|]. split.
    + eapply reaches_pass; [subst fr0; vm_compute; reflexivity | exact Hb
                           | constructor].
    + subst fr0. vm_compute in Hb. injection Hb as <- _. vm_compute. reflexivity.
Qed.

(* ===================================================================== *)
(** * The draws a run reads *)
(* ===================================================================== *)

Section TwoSources.

Variables draws1 draws2 : nat -> float.

Lemma blow_agree (fr : frame) (d : float) (k : nat) :
  draws1 k = draws2 k -> draws1 (S k) = draws2 (S k) ->
  blow draws1 fr d k = blow draws2 fr d k.
Proof. intros H0 H1. unfold blow. now rewrite H0, H1. Qed.

Lemma clip_agree (ms : float) (v : float * float) (k : nat) :
  draws1 k = draws2 k -> clip draws1 ms v k = clip draws2 ms v k.
Proof. intros H. unfold clip. now rewrite H. Qed.

Lemma body_agree (fr : frame) (k : nat) :
  (forall i, k <= i < k + 3 -> draws1 i = draws2 i) ->
  body draws1 fr k = body draws2 fr k.
Proof.
  intros H. unfold body.
  rewrite (blow_agree fr (dist fr) k) by (apply H; lia).
  pose proof (blow_cursor draws2 fr (dist fr) k) as Hk.
  destruct (blow draws2 fr (dist fr) k) as [[[wx wy] ms] k1]. simpl in Hk.
  rewrite (clip_agree ms (accelerate fr (dist fr) wx wy) k1) by (apply H; lia).
  reflexivity.
Qed.

Lemma run_agree (fuel : nat) (fr : frame) (k : nat) :
  (forall i, k <= i < k + 3 * fuel -> draws1 i = draws2 i) ->
  run draws1 fuel fr k = run draws2 fuel fr k.
Proof.
  revert fr k. induction fuel as [|fuel IH]; intros fr k H; simpl; [reflexivity|].
  destruct (keeps_going fr); [|reflexivity].
  rewrite (body_agree fr k) by (intros i Hi; apply H; lia).
  destruct (body draws2 fr k) as [p fr1 k1|fr1 k1|e] eqn:Hb; [| |reflexivity].
  - assert (Hk : k <= k1 <= k + 3)
      by (apply (body_cursor draws2 fr fr1 k k1); now rewrite Hb).
    rewrite (IH fr1 k1) by (intros i Hi; apply H; lia). reflexivity.
  - assert (Hk : k <= k1 <= k + 3)
      by (apply (body_cursor draws2 fr fr1 k k1); now rewrite Hb).
    apply IH. intros i Hi. apply H. lia.
Qed.

End TwoSources.

(** C9.  Two generators built from the same start, destination and parameters
    and fed the same draws yield the same points and end the same way.  A run
    of at most [fuel] passes reads nothing but the draws from its cursor [k]
    up to [k + 3 * fuel], so two random sources that agree there cannot be
    told apart. *)
Theorem same_draws_same_path (draws1 draws2 : nat -> float)
    (sx sy dx dy : Z) (gravity wind maxstep damped : float) (fuel k : nat) :
  (forall i, k <= i < k + 3 * fuel -> draws1 i = draws2 i) ->
  collect draws1 fuel (wind_mouse sx sy dx dy gravity wind maxstep damped) k
  = collect draws2 fuel (wind_mouse sx sy dx dy gravity wind maxstep damped) k.
Proof. intros H. simpl. now apply run_agree. Qed.

(* ===================================================================== *)
(** * Destination equal to start *)
(* ===================================================================== *)

Lemma at_destination (fr : frame) (x y : Z) :
  start_x fr = Int x -> start_y fr = Int y ->
  dest_x fr = x -> dest_y fr = y ->
  keeps_going fr = false.
Proof.
  intros Hx Hy Hdx Hdy. unfold keeps_going, dist.
  rewrite Hx, Hy, Hdx, Hdy. simpl. rewrite !Z.sub_diag. reflexivity.
Qed.

Lemma resume_stops (draws : nat -> float) (fuel : nat) (fr : frame) (k : nat) :
  keeps_going fr = false -> resume draws fuel fr k = StopIteration fr k.
Proof. intros H. destruct fuel; simpl; now rewrite H. Qed.

Lemma run_stops (draws : nat -> float) (fuel : nat) (fr : frame) (k : nat) :
  keeps_going fr = false -> run draws fuel fr k = ([], Returned fr k).
Proof. intros H. destruct fuel; simpl; now rewrite H. Qed.

(** C5.  When the destination equals the start, the generator yields no point:
    its first [next] stops at once and the whole run is empty, whatever the
    parameters and the draws.  A controller built with that start and target
    answers [false] to its first [tick] and makes no call to the bridge. *)
Theorem start_is_destination (draws : nat -> float) (x y : Z)
    (gravity wind maxstep damped : float) (fuel k : nat) :
  let g := wind_mouse x y x y gravity wind maxstep damped in
  (exists fr, g = Suspended fr /\
              next draws fuel g k = StopIteration fr k /\
              collect draws fuel g k = ([], Returned fr k)) /\
  forall (b : backend) (step_duration : float) (w : world),
    exists c',
      tick draws b step_duration fuel
           (new_controller (Some x) (Some y) (Some x) (Some y)
                           gravity wind maxstep damped) w
      = Ret (false, c', w) /\
      phase_of c' = Done.
Proof.
  intros g. split.
  - eexists. split; [reflexivity|]. unfold g, wind_mouse, next, collect.
    rewrite resume_stops, run_stops
      by (now apply (at_destination _ x y)).
    split; reflexivity.
  - intros b step_duration w.
    unfold tick, get_next_point, ensure_generator, new_controller,
      resolve_start, wind_mouse, next.
    simpl. rewrite resume_stops by (now apply (at_destination _ x y)).
    eexists. split.
    + unfold log. simpl. rewrite app_nil_r. destruct w; reflexivity.
    + reflexivity.
Qed.

(* ===================================================================== *)
(** * Where a run ends *)
(* ===================================================================== *)

Section Ending.

Variable draws : nat -> float.

(** A pass that yields stores the new float position, not the yielded point,
    in [current_x], [current_y] (line 69). *)
Lemma body_emitted (fr fr' : frame) (k k' : nat) (q : point) :
  body draws fr k = Emitted q fr' k' ->
  exists sx sy,
    start_x fr' = Float sx /\ start_y fr' = Float sy /\
    current_x fr' = Float sx /\ current_y fr' = Float sy /\
    int_round sx = inr (fst q) /\ int_round sy = inr (snd q) /\
    (number_eq_int (current_x fr) (fst q) = false \/
     number_eq_int (current_y fr) (snd q) = false).
Proof.
  unfold body.
  destruct (blow draws fr (dist fr) k) as [[[wx wy] ms] k1].
  destruct (clip draws ms (accelerate fr (dist fr) wx wy) k1) as [[vx vy] k2].
  destruct (int_round (to_float (start_x fr) + vx)) as [e|mx] eqn:Hx;
    [discriminate|].
  destruct (int_round (to_float (start_y fr) + vy)) as [e|my] eqn:Hy;
    [discriminate|].
  destruct (negb (number_eq_int (current_x fr) mx)
            || negb (number_eq_int (current_y fr) my)) eqn:Hne;
    [|discriminate].
  intros H. injection H as <- <- <-. simpl.
  exists (to_float (start_x fr) + vx), (to_float (start_y fr) + vy).
  repeat split; auto.
  apply orb_true_iff in Hne. destruct Hne as [Hne|Hne];
    apply negb_true_iff in Hne; auto.
Qed.

(** A silent pass is one whose rounded position equals [current_x],
    [current_y] as they stand; it moves the position and leaves them alone. *)
Lemma body_silent (fr fr' : frame) (k k' : nat) :
  body draws fr k = Silent fr' k' ->
  exists sx sy mx my,
    start_x fr' = Float sx /\ start_y fr' = Float sy /\
    current_x fr' = current_x fr /\ current_y fr' = current_y fr /\
    int_round sx = inr mx /\ int_round sy = inr my /\
    number_eq_int (current_x fr) mx = true /\
    number_eq_int (current_y fr) my = true.
Proof.
  unfold body.
  destruct (blow draws fr (dist fr) k) as [[[wx wy] ms] k1].
  destruct (clip draws ms (accelerate fr (dist fr) wx wy) k1) as [[vx vy] k2].
  destruct (int_round (to_float (start_x fr) + vx)) as [e|mx] eqn:Hx;
    [discriminate|].
  destruct (int_round (to_float (start_y fr) + vy)) as [e|my] eqn:Hy;
    [discriminate|].
  destruct (negb (number_eq_int (current_x fr) mx)
            || negb (number_eq_int (current_y fr) my)) eqn:Hne;
    [discriminate|].
  intros H. injection H as <- <-. simpl.
  exists (to_float (start_x fr) + vx), (to_float (start_y fr) + vy), mx, my.
  apply orb_false_iff in Hne. destruct Hne as [H1 H2].
  apply negb_false_iff in H1. apply negb_false_iff in H2.
  repeat split; auto.
Qed.

Lemma last_cons (q p : point) (ps : list point) :
  last (q :: ps) p = last ps q.
Proof.
  revert q p. induction ps as [|a ps IH]; intros q p; [reflexivity|].
  change (last (q :: a :: ps) p) with (last (a :: ps) p).
  now rewrite (IH a p), (IH a q).
Qed.

Lemma run_rounds_to (fuel : nat) (fr fr' : frame) (k k' : nat)
    (p : point) (ps : list point) :
  rounds_to fr p ->
  run draws fuel fr k = (ps, Returned fr' k') ->
  rounds_to fr' (last ps p).
Proof.
  revert fr k p ps. induction fuel as [|fuel IH]; intros fr k p ps Hp; simpl.
  - destruct (keeps_going fr); intros H; inversion H; subst; exact Hp.
  - destruct (keeps_going fr); [|intros H; inversion H; subst; exact Hp].
    destruct (body draws fr k) as [q fr1 k1|fr1 k1|e] eqn:Hb; [| |discriminate].
    + destruct (run draws fuel fr1 k1) as [ps1 e1] eqn:Hr.
      intros H. inversion H; subst. rewrite last_cons.
      apply (IH fr1 k1 q ps1); [|exact Hr].
      apply body_emitted in Hb.
      destruct Hb as (sx & sy & Hsx & Hsy & Hcx & Hcy & Hrx & Hry & _).
      exists sx, sy, sx, sy. repeat split; assumption.
    + intros H. apply (IH fr1 k1 p ps); [|exact H].
      apply body_silent in Hb.
      destruct Hb as (sx & sy & mx & my & Hsx & Hsy & Hcx & Hcy & Hrx & Hry
                      & Hex & Hey).
      destruct Hp as (sx0 & sy0 & cx & cy & _ & _ & Hcx0 & Hcy0 & _ & _
                      & Hrcx & Hrcy).
      rewrite Hcx0 in Hex, Hcx. rewrite Hcy0 in Hey, Hcy. simpl in Hex, Hey.
      apply float_eq_int_round in Hex. apply float_eq_int_round in Hey.
      assert (mx = fst p) by congruence. assert (my = snd p) by congruence.
      subst mx my.
      exists sx, sy, cx, cy. repeat split; assumption.
Qed.

Lemma run_last_rounded (fuel : nat) (fr fr' : frame) (k k' : nat)
    (d : point) (ps : list point) :
  run draws fuel fr k = (ps, Returned fr' k') ->
  ps <> [] ->
  rounds_to fr' (last ps d).
Proof.
  revert fr k ps. induction fuel as [|fuel IH]; intros fr k ps; simpl.
  - destruct (keeps_going fr); intros H; inversion H; subst; congruence.
  - destruct (keeps_going fr); [|intros H; inversion H; subst; congruence].
    destruct (body draws fr k) as [q fr1 k1|fr1 k1|e] eqn:Hb; [| |discriminate].
    + destruct (run draws fuel fr1 k1) as [ps1 e1] eqn:Hr.
      intros H _. inversion H; subst. rewrite last_cons.
      apply (run_rounds_to fuel fr1 fr' k1 k' q ps1); [|exact Hr].
      apply body_emitted in Hb.
      destruct Hb as (sx & sy & Hsx & Hsy & Hcx & Hcy & Hrx & Hry & _).
      exists sx, sy, sx, sy. repeat split; assumption.
    + apply IH.
Qed.

End Ending.

(** C2, as the code has it.  A run that returns has yielded finitely many
    points and ends in a frame whose float position fails the loop test
    [dist >= 1] against the destination given at construction; if it yielded
    at all, the last yielded pair is that final position rounded per axis.
    It is the float position that lies within distance 1 of the destination,
    not the rounded pair that was yielded. *)
Theorem run_ends_near_destination (draws : nat -> float)
    (sx sy dx dy : Z) (gravity wind maxstep damped : float)
    (fuel k k' : nat) (ps : list point) (fr' : frame) :
  collect draws fuel (wind_mouse sx sy dx dy gravity wind maxstep damped) k
  = (ps, Returned fr' k') ->
  (1 <=? dist fr') = false /\
  dest_x fr' = dx /\ dest_y fr' = dy /\
  (ps <> [] ->
   exists fx fy,
     start_x fr' = Float fx /\ start_y fr' = Float fy /\
     int_round fx = inr (fst (last ps (sx, sy))) /\
     int_round fy = inr (snd (last ps (sx, sy)))).
Proof.
  simpl. intros Hrun.
  split; [exact (run_returned draws fuel _ fr' k k' ps Hrun)|].
  pose proof (run_reaches draws fuel
    {| start_x := Int sx; start_y := Int sy; dest_x := dx; dest_y := dy;
       gravity_magnitude := gravity; wind_magnitude := wind;
       max_step := maxstep; damped_distance := damped;
       current_x := Int sx; current_y := Int sy;
       velocity_x := 0; velocity_y := 0; wind_x := 0; wind_y := 0 |} k) as Hre.
  rewrite Hrun in Hre. simpl in Hre.
  apply reaches_parameters in Hre. destruct Hre as (_ & _ & _ & Hdx & Hdy).
  simpl in Hdx, Hdy. split; [exact Hdx|]. split; [exact Hdy|]. intros Hne.
  destruct (run_last_rounded draws fuel _ fr' k k' (sx, sy) ps Hrun Hne)
    as (fx & fy & cx & cy & Hfx & Hfy & _ & _ & Hrx & Hry & _).
  exists fx, fy. auto.
Qed.

(** C2 as stated fails: with the default parameters, from (0,0) to (4,4) and
    every draw 0.9375, the run returns after yielding (5,5) alone, at squared
    distance 2 from the destination.  The one pass: dist = 5.657 is below 12,
    so the wind stays 0 and [max_step] becomes 15 / sqrt5 = 6.708; the
    velocity (6.364, 6.364) has magnitude 9, above 6.708, and is clipped to
    magnitude 3.354 + 0.9375 * 3.354 = 6.498, that is (4.595, 4.595); the
    position (4.595, 4.595) rounds to (5,5), which is yielded; it is at
    distance 0.842 from (4,4), so the loop ends. *)
Lemma last_point_off_by_diagonal :
  exists ps fr' k',
    (1 <= sq_distance (0, 0) (4, 4))%Z /\
    collect (fun _ => 0.9375) 10 (wind_mouse_default 0 0 4 4) 0
    = (ps, Returned fr' k') /\
    last ps (0, 0)%Z = (5, 5)%Z /\
    (1 < sq_distance (last ps (0, 0)%Z) (4, 4))%Z.
Proof.
  eexists. eexists. eexists.
  split; [vm_compute; discriminate|].
  split; [vm_compute; reflexivity|].
  split; vm_compute; reflexivity.
Qed.

(** A run may also return without a point: from (0,0) to (1,0), at distance
    1, a weak pull of 0.25 and no wind move the position to 0.25, which rounds
    to the start, and the loop test then fails. *)
Example returns_without_a_point :
  exists fr' k',
    (1 <= sq_distance (0, 0) (1, 0))%Z /\
    collect (fun _ => 0.5) 10 (wind_mouse 0 0 1 0 0.25 0 15 12) 0
    = ([], Returned fr' k').
Proof.
  eexists. eexists. split; [vm_compute; discriminate | vm_compute; reflexivity].
Qed.

(* ===================================================================== *)
(** * Duplicate suppression *)
(* ===================================================================== *)

(** C1 fails on the code.  From (0,0) to (1,0) with [max_step = 16], the other
    parameters at their defaults and every draw 0.25, the generator yields
    (4,0), (2,0), (2,0) and returns.  All three passes are in the damped
    regime (wind 0) and are clipped to [1.25 * max_step / 2].  Pass 1:
    [max_step] 16 / sqrt5 = 7.155, velocity 9 clipped to 4.472, position
    4.472, yields (4,0).  Pass 2: [max_step] 3.2, velocity 4.472 - 9 clipped
    to -2, position 2.472, yields (2,0).  Pass 3: [max_step] 1.431, velocity
    -11 clipped to -0.894, position 1.578, which rounds to the point (2,0)
    yielded just before; it is yielded again, because line 69 stored the
    float 2.472 where line 68 compares with the rounded 2.  The position is
    then 0.578 from the destination and the loop ends. *)
Theorem same_point_twice :
  exists fr' k',
    collect (fun _ => 0.25) 10 (wind_mouse 0 0 1 0 9 3 16 12) 0
    = ([(4, 0); (2, 0); (2, 0)]%Z, Returned fr' k') /\
    has_repeat [(4, 0); (2, 0); (2, 0)]%Z = true.
Proof.
  eexists. eexists. split; [vm_compute; reflexivity | reflexivity].
Qed.

(* ===================================================================== *)
(** * Construction *)
(* ===================================================================== *)

(** C3, as the code has it.  Constructing a generator checks nothing: for
    every start, destination and parameter values the call returns a suspended
    generator whose frame holds the parameters as given.  Nothing is raised
    then, nor at the first loop test: up to the first pass of the body a
    [next] either stops or goes on, and which of the two does not depend on
    the four parameters. *)
Theorem construction_accepts_everything (draws : nat -> float)
    (sx sy dx dy : Z) (gravity wind maxstep damped : float) (k : nat) :
  exists fr,
    wind_mouse sx sy dx dy gravity wind maxstep damped = Suspended fr /\
    gravity_magnitude fr = gravity /\ wind_magnitude fr = wind /\
    max_step fr = maxstep /\ damped_distance fr = damped /\
    start_x fr = Int sx /\ start_y fr = Int sy /\
    dest_x fr = dx /\ dest_y fr = dy /\
    (forall e, next draws 0 (Suspended fr) k <> Throw e) /\
    (forall fr0, wind_mouse_default sx sy dx dy = Suspended fr0 ->
                 keeps_going fr = keeps_going fr0).
Proof.
  eexists. split; [reflexivity|]. simpl. repeat split.
  - intros e. destruct (keeps_going _); discriminate.
  - intros fr0 H. injection H as <-. reflexivity.
Qed.

(** C3 as stated fails: generators with a zero [damped_distance], with a
    negative [max_step] and with a zero [gravity_magnitude] are constructed
    like any other, and the first two go on to yield a point at their first
    [next] (the first moves by the unclipped velocity 9; the second has its
    [max_step] of -15 replaced by 0 * 3 + 3 = 3 and moves by the clipped
    velocity 1.5, which rounds to 2); the third, with no gravity and no wind,
    has velocity 0 and makes fifty passes without yielding. *)
Lemma non_positive_parameters_accepted :
  (exists fr g' k',
      wind_mouse 0 0 10 0 9 3 15 0 = Suspended fr /\
      (damped_distance fr <=? 0) = true /\
      next (fun _ => 0.5) 1 (Suspended fr) 0 = Yield (9, 0)%Z g' k') /\
  (exists fr g' k',
      wind_mouse 0 0 10 0 9 3 (-15) 12 = Suspended fr /\
      (max_step fr <=? 0) = true /\
      next (fun _ => 0) 1 (Suspended fr) 0 = Yield (2, 0)%Z g' k') /\
  (exists fr,
      wind_mouse 0 0 10 0 0 0 15 12 = Suspended fr /\
      (gravity_magnitude fr <=? 0) = true /\
      next (fun _ => 0.5) 50 (Suspended fr) 0 = OutOfFuel).
Proof.
  split; [|split].
  - eexists. eexists. eexists. split; [reflexivity|].
    split; vm_compute; reflexivity.
  - eexists. eexists. eexists. split; [reflexivity|].
    split; vm_compute; reflexivity.
  - eexists. split; [reflexivity|]. split; vm_compute; reflexivity.
Qed.

(* ===================================================================== *)
(** * The exhaustion contract of [tick] *)
(* ===================================================================== *)

Section Tick.

Variable draws : nat -> float.
Variable b : backend.

Lemma position_is_no_move : is_move (position b) = false.
Proof. destruct b; reflexivity. Qed.

Lemma resolve_start_no_move (c : controller) (w : world) :
  filter is_move (snd (resolve_start b c w)) = [].
Proof.
  unfold resolve_start.
  destruct (ctl_start_x c), (ctl_start_y c); simpl;
    rewrite ?position_is_no_move; reflexivity.
Qed.

Lemma ensure_generator_no_move (c : controller) (w : world)
    (g : generator) (qs : list call) :
  ensure_generator b c w = Some (g, qs) -> filter is_move qs = [].
Proof.
  unfold ensure_generator.
  destruct (ctl_dest_x c) as [dx|]; [|discriminate].
  destruct (ctl_dest_y c) as [dy|]; [|discriminate].
  destruct (ctl_generator c) as [g0|].
  - intros H. injection H as _ <-. reflexivity.
  - pose proof (resolve_start_no_move c w) as Hq.
    destruct (resolve_start b c w) as [[sx sy] qs0]. simpl in Hq.
    intros H. injection H as _ <-. exact Hq.
Qed.




End Tick.


(* ===================================================================== *)
(** * The theorems at concrete inputs *)
(* ===================================================================== *)


Lemma damped_regime_braking_witness :
  exists fr' k',
    after (body (fun _ => 0.25) near_frame 0) = Some (fr', k') /\
    wind_x fr' = wind_x near_frame / sqrt3 /\
    wind_y fr' = wind_y near_frame / sqrt3 /\
    max_step fr' = 0.25 * 3 + 3 /\ 1 <= k'.
Proof.
  eexists. eexists. split.
  - vm_compute. reflexivity.
  - eapply (damped_regime_braking (fun _ => 0.25) near_frame _ 0);
      vm_compute; reflexivity.
Defined.


Lemma same_draws_same_path_witness :
  collect (fun _ => 0.25) 10 (wind_mouse_default 0 0 100 0) 0
  = collect late_change 10 (wind_mouse_default 0 0 100 0) 0.
Proof.
  apply (same_draws_same_path (fun _ => 0.25) late_change 0 0 100 0 9 3 15 12 10 0).
  intros i Hi. unfold late_change.
  destruct (Nat.ltb_spec i 30) as [_|Hge]; [reflexivity | lia].
Defined.

Lemma run_ends_near_destination_witness :
  exists ps fr' k',
    collect (fun _ => 0.5) 100 (wind_mouse_default 0 0 100 0) 0
    = (ps, Returned fr' k') /\
    last ps (0, 0)%Z = (100, 0)%Z /\
    (1 <=? dist fr') = false /\
    dest_x fr' = 100%Z /\ dest_y fr' = 0%Z /\
    (ps <> [] ->
     exists fx fy,
       start_x fr' = Float fx /\ start_y fr' = Float fy /\
       int_round fx = inr (fst (last ps (0, 0)%Z)) /\
       int_round fy = inr (snd (last ps (0, 0)%Z))).
Proof.
  eexists. eexists. eexists. split; [|split].
  - vm_compute. reflexivity.
  - reflexivity.
  - eapply (run_ends_near_destination (fun _ => 0.5) 0 0 100 0 9 3 15 12 100 0).
    vm_compute. reflexivity.
Defined.


(* ===================================================================== *)
(** * What [wind_mouse] yields first, and when it suppresses *)
(* ===================================================================== *)

Section Yields.

Variable draws : nat -> float.

Lemma float_eq_int_integral (x : float) (z : Z) :
  float_eq_int x z = true -> integral x = true.
Proof.
  intros H. unfold integral. now rewrite (float_eq_int_round x z H).
Qed.

(** Until the first point is yielded, [current_x], [current_y] stay the
    [int] start, and the first point yielded differs from it. *)
Lemma run_first_point (fuel : nat) (fr : frame) (k : nat) (x y : Z)
    (p : point) (ps : list point) (e : ending) :
  current_x fr = Int x -> current_y fr = Int y ->
  run draws fuel fr k = (p :: ps, e) ->
  p <> (x, y).
Proof.
  revert fr k. induction fuel as [|fuel IH]; intros fr k Hx Hy; simpl.
  - destruct (keeps_going fr); discriminate.
  - destruct (keeps_going fr); [|discriminate].
    destruct (body draws fr k) as [q fr1 k1|fr1 k1|ex] eqn:Hb; [| |discriminate].
    + destruct (run draws fuel fr1 k1) as [ps1 e1].
      intros H. injection H as <- _ _.
      apply body_emitted in Hb.
      destruct Hb as (_ & _ & _ & _ & _ & _ & _ & _ & Hne).
      rewrite Hx, Hy in Hne. simpl in Hne. intros ->. simpl in Hne.
      rewrite !Z.eqb_refl in Hne. destruct Hne; discriminate.
    + apply body_silent in Hb.
      destruct Hb as (_ & _ & _ & _ & _ & _ & Hcx & Hcy & _).
      apply IH; congruence.
Qed.

(** A pass entered with a stored float position that is not an integer on
    some axis is never silent. *)
Lemma fractional_never_silent (fr fr' : frame) (k k' : nat) (cx cy : float) :
  current_x fr = Float cx -> current_y fr = Float cy ->
  integral cx && integral cy = false ->
  body draws fr k <> Silent fr' k'.
Proof.
  intros Hx Hy Hfrac Hb. apply body_silent in Hb.
  destruct Hb as (_ & _ & mx & my & _ & _ & _ & _ & _ & _ & Hex & Hey).
  rewrite Hx in Hex. rewrite Hy in Hey. simpl in Hex, Hey.
  apply float_eq_int_integral in Hex. apply float_eq_int_integral in Hey.
  rewrite Hex, Hey in Hfrac. discriminate.
Qed.

(** What [next] leaves behind when it yields [p]: a float position that
    rounds to [p], stored as it is in [current_x], [current_y]. *)
Lemma resume_yield (fuel : nat) (fr fr' : frame) (k k' : nat) (p : point) :
  resume draws fuel fr k = Yield p (Suspended fr') k' ->
  exists fx fy,
    start_x fr' = Float fx /\ start_y fr' = Float fy /\
    current_x fr' = Float fx /\ current_y fr' = Float fy /\
    int_round fx = inr (fst p) /\ int_round fy = inr (snd p).
Proof.
  revert fr k. induction fuel as [|fuel IH]; intros fr k; simpl.
  - destruct (keeps_going fr); discriminate.
  - destruct (keeps_going fr); [|discriminate].
    destruct (body draws fr k) as [q fr1 k1|fr1 k1|ex] eqn:Hb; [| |discriminate].
    + intros H. injection H as <- <- <-.
      apply body_emitted in Hb.
      destruct Hb as (fx & fy & H1 & H2 & H3 & H4 & H5 & H6 & _).
      exists fx, fy. auto 8.
    + apply IH.
Qed.

End Yields.

(** X1.  The first point a generator yields is never its own start point:
    until something is yielded the rounded position is compared with the
    [int] start, and a pass that rounds to it is silent. *)
Theorem first_point_is_not_start (draws : nat -> float)
    (sx sy dx dy : Z) (gravity wind maxstep damped : float)
    (fuel k : nat) (p : point) (ps : list point) (e : ending) :
  collect draws fuel (wind_mouse sx sy dx dy gravity wind maxstep damped) k
  = (p :: ps, e) ->
  p <> (sx, sy).
Proof.
  simpl. apply run_first_point; reflexivity.
Qed.

(** X2.  Once a point has been yielded from a position that is not a whole
    number on both axes, nothing is suppressed any more: the next [next]
    takes exactly one pass of the body, and that pass yields unless the loop
    has ended or [int()] raises.  In particular no amount of extra passes
    changes its answer. *)
Theorem next_after_fractional_yield (draws : nat -> float)
    (fuel0 : nat) (fr0 fr : frame) (k0 k : nat) (p : point) :
  resume draws fuel0 fr0 k0 = Yield p (Suspended fr) k ->
  integral (to_float (start_x fr)) && integral (to_float (start_y fr)) = false ->
  (forall fr' k', body draws fr k <> Silent fr' k') /\
  (forall fuel, next draws (S fuel) (Suspended fr) k
                = next draws 1 (Suspended fr) k).
Proof.
  intros Hy Hfrac. apply resume_yield in Hy.
  destruct Hy as (fx & fy & Hsx & Hsy & Hcx & Hcy & _).
  rewrite Hsx, Hsy in Hfrac. simpl in Hfrac.
  assert (Hns : forall fr' k', body draws fr k <> Silent fr' k')
    by (intros fr' k'; now apply (fractional_never_silent draws fr fr' k k' fx fy)).
  split; [exact Hns|].
  intros fuel. simpl. destruct (keeps_going fr); [|reflexivity].
  destruct (body draws fr k) as [q fr1 k1|fr1 k1|ex] eqn:Hb; try reflexivity.
  exfalso. exact (Hns fr1 k1 eq_refl).
Qed.

(* ===================================================================== *)
(** * What [wind_mouse] raises, and NaN parameters *)
(* ===================================================================== *)



Lemma nan_inside (x : float) : is_nan x = true -> Prim2SF x = S754_nan.
Proof. intros H. unfold Prim2SF. now rewrite H. Qed.

Lemma nan_outside (x : float) : Prim2SF x = S754_nan -> is_nan x = true.
Proof.
  unfold Prim2SF. destruct (is_nan x); [reflexivity|].
  destruct (is_zero x); [discriminate|].
  destruct (is_infinity x); [discriminate|].
  destruct (Z.frexp x) as [r ex].
  destruct (shr_fexp prec emax (Uint63Axioms.to_Z (normfr_mantissa r))
              (Z.sub ex prec) loc_Exact) as [shr e'].
  destruct (shr_m shr); discriminate.
Qed.

Lemma nan_add_l (x y : float) : is_nan x = true -> is_nan (x + y) = true.
Proof.
  intros H. apply nan_outside. rewrite add_spec, (nan_inside x H). reflexivity.
Qed.

Lemma nan_add_r (x y : float) : is_nan y = true -> is_nan (x + y) = true.
Proof.
  intros H. apply nan_outside. rewrite add_spec, (nan_inside y H).
  unfold SF64add. now destruct (Prim2SF x).
Qed.

Lemma nan_mul_l (x y : float) : is_nan x = true -> is_nan (x * y) = true.
Proof.
  intros H. apply nan_outside. rewrite mul_spec, (nan_inside x H). reflexivity.
Qed.

Lemma nan_div_l (x y : float) : is_nan x = true -> is_nan (x / y) = true.
Proof.
  intros H. apply nan_outside. rewrite div_spec, (nan_inside x H). reflexivity.
Qed.

Lemma nan_sqrt (x : float) : is_nan x = true -> is_nan (sqrt x) = true.
Proof.
  intros H. apply nan_outside. rewrite sqrt_spec, (nan_inside x H). reflexivity.
Qed.

Lemma nan_ltb_l (x y : float) : is_nan x = true -> (x <? y) = false.
Proof. intros H. rewrite ltb_spec, (nan_inside x H). reflexivity. Qed.

Lemma nan_ltb_r (x y : float) : is_nan y = true -> (x <? y) = false.
Proof.
  intros H. rewrite ltb_spec, (nan_inside y H).
  unfold SFltb. now destruct (Prim2SF x).
Qed.

Lemma nan_hypot_l (x y : float) : is_nan x = true -> is_nan (hypot x y) = true.
Proof.
  intros H. unfold hypot. now apply nan_sqrt, nan_add_l, nan_mul_l.
Qed.

Section Errors.

Variable draws : nat -> float.

(** A pass rounds the position [landing] gives, x before y. *)
Lemma body_rounds_landing (fr : frame) (k : nat) :
  match int_round (fst (landing draws fr k)) with
  | inl e => body draws fr k = Raised e
  | inr _ =>
      match int_round (snd (landing draws fr k)) with
      | inl e => body draws fr k = Raised e
      | inr _ => exists fr' k', after (body draws fr k) = Some (fr', k')
      end
  end.
Proof.
  unfold landing, body.
  destruct (blow draws fr (dist fr) k) as [[[wx wy] ms] k1].
  destruct (clip draws ms (accelerate fr (dist fr) wx wy) k1) as [[vx vy] k2].
  simpl.
  destruct (int_round (to_float (start_x fr) + vx)) as [e|mx]; [reflexivity|].
  destruct (int_round (to_float (start_y fr) + vy)) as [e|my]; [reflexivity|].
  destruct (negb (number_eq_int (current_x fr) mx)
            || negb (number_eq_int (current_y fr) my));
    eexists; eexists; reflexivity.
Qed.

Lemma landing_nan_gravity (fr : frame) (k : nat) :
  is_nan (gravity_magnitude fr) = true ->
  is_nan (fst (landing draws fr k)) = true.
Proof.
  intros Hg. unfold landing.
  destruct (blow draws fr (dist fr) k) as [[[wx wy] ms] k1].
  assert (Hv : is_nan (fst (accelerate fr (dist fr) wx wy)) = true)
    by (unfold accelerate; simpl;
        now apply nan_add_r, nan_add_r, nan_div_l, nan_mul_l).
  unfold clip.
  rewrite (nan_ltb_r ms _ (nan_hypot_l _ (snd (accelerate fr (dist fr) wx wy)) Hv)).
  simpl. now apply nan_add_r.
Qed.

End Errors.


(** X4.  A generator built with a NaN [gravity_magnitude] is accepted and
    raises [ValueError] in its first pass: whenever the start is at distance
    1 or more from the destination, the first [next] raises, whatever the
    other parameters and the draws. *)
Theorem nan_gravity_raises (draws : nat -> float)
    (sx sy dx dy : Z) (gravity wind maxstep damped : float)
    (fuel k : nat) (fr0 : frame) :
  is_nan gravity = true ->
  wind_mouse sx sy dx dy gravity wind maxstep damped = Suspended fr0 ->
  keeps_going fr0 = true ->
  next draws (S fuel) (Suspended fr0) k = Throw ValueError.
Proof.
  intros Hnan H0 Hgo. injection H0 as <-. simpl in *. rewrite Hgo.
  match goal with
  | |- context [body draws ?fr k] =>
      pose proof (body_rounds_landing draws fr k) as H;
      pose proof (landing_nan_gravity draws fr k Hnan) as Hl
  end.
  apply nan_inside in Hl. unfold int_round in H at 1. rewrite Hl in H.
  now rewrite H.
Qed.

Lemma nan_max_step_kept (draws : nat -> float) (fr fr' : frame) (k k' : nat) :
  is_nan (max_step fr) = true ->
  after (body draws fr k) = Some (fr', k') ->
  is_nan (max_step fr') = true.
Proof.
  intros Hnan H. apply body_after in H.
  destruct H as (wx & wy & ms & k1 & vx & vy & Hb & _ & _ & _ & Hms & _).
  rewrite Hms. unfold blow in Hb. destruct (damped_distance fr <=? dist fr).
  - injection Hb as _ _ <- _. exact Hnan.
  - rewrite (nan_ltb_l _ 3 Hnan) in Hb. injection Hb as _ _ <- _.
    now apply nan_div_l.
Qed.

Lemma nan_max_step_reaches (draws : nat -> float) (fr fr' : frame) (k k' : nat) :
  reaches draws fr k fr' k' ->
  is_nan (max_step fr) = true -> is_nan (max_step fr') = true.
Proof.
  induction 1 as [|fr fr1 fr2 k k1 k2 _ Hb _ IH]; [auto|].
  intros Hnan. apply IH. exact (nan_max_step_kept draws fr fr1 k k1 Hnan Hb).
Qed.

(** X5.  A NaN [max_step] switches the clip off for good: in every pass of
    the generator's life [max_step] is NaN again afterwards and the velocity
    is left as accumulated, however long it is. *)
Theorem nan_max_step_never_clips (draws : nat -> float)
    (fr0 fr fr' : frame) (k0 k k' : nat) :
  is_nan (max_step fr0) = true ->
  reaches draws fr0 k0 fr k ->
  after (body draws fr k) = Some (fr', k') ->
  is_nan (max_step fr') = true /\
  velocity_x fr' = velocity_x fr
                   + (wind_x fr' + gravity_magnitude fr
                                   * to_float (int_sub (dest_x fr) (start_x fr))
                                   / dist fr) /\
  velocity_y fr' = velocity_y fr
                   + (wind_y fr' + gravity_magnitude fr
                                   * to_float (int_sub (dest_y fr) (start_y fr))
                                   / dist fr).
Proof.
  intros Hnan0 Hre H.
  pose proof (nan_max_step_reaches draws fr0 fr k0 k Hre Hnan0) as Hnan.
  split; [exact (nan_max_step_kept draws fr fr' k k' Hnan H)|].
  apply body_after in H.
  destruct H as (wx & wy & ms & k1 & vx & vy & Hb & Hc & Hwx & Hwy & Hms
                 & Hvx & Hvy & _).
  assert (Hms' : is_nan ms = true).
  { unfold blow in Hb. destruct (damped_distance fr <=? dist fr).
    - injection Hb as _ _ <- _. exact Hnan.
    - rewrite (nan_ltb_l _ 3 Hnan) in Hb. injection Hb as _ _ <- _.
      now apply nan_div_l. }
  unfold clip in Hc. rewrite (nan_ltb_l ms _ Hms') in Hc.
  injection Hc as <- <- _. unfold accelerate in *. simpl in *.
  rewrite Hvx, Hvy, Hwx, Hwy. auto.
Qed.

(* ===================================================================== *)
(** * [tick] over any helper, and the buttons *)
(* ===================================================================== *)

Lemma move_to_is_move (b : backend) (x y : Z) (d : float) :
  is_move (move_to b x y d) = true.
Proof. destruct b; reflexivity. Qed.

(** [tick] is [tick_over] at the helper modelled from the spec. *)
Lemma tick_is_tick_over (draws : nat -> float) (b : backend)
    (step_duration : float) (fuel : nat) (c : controller) (w : world) :
  tick draws b step_duration fuel c w
  = tick_over controller (get_next_point draws b fuel) b step_duration c w.
Proof. reflexivity. Qed.

Lemma ticks_is_ticks_over (draws : nat -> float) (b : backend)
    (step_duration : float) (fuel n : nat) (c : controller) (w : world) :
  ticks draws b step_duration fuel n c w
  = ticks_over controller (get_next_point draws b fuel) b step_duration n c w.
Proof.
  revert c w. induction n as [|n IH]; intros c w; simpl; [reflexivity|].
  rewrite tick_is_tick_over.
  destruct (tick_over controller (get_next_point draws b fuel) b step_duration c w)
    as [[[r c'] w']|e|]; try reflexivity.
  now rewrite IH.
Qed.

Lemma get_next_point_no_move (draws : nat -> float) (b : backend) (fuel : nat)
    (c : controller) (w : world) (r : option point)
    (c' : controller) (w' : world) :
  get_next_point draws b fuel c w = Ret (r, c', w') -> moves w' = moves w.
Proof.
  unfold get_next_point, moves.
  destruct (ensure_generator b c w) as [[g qs]|] eqn:Hg.
  - pose proof (ensure_generator_no_move b c w g qs Hg) as Hq.
    destruct (next draws fuel g (cursor w)) as [p g' k|fr k|k|e|];
      try discriminate; intros H; injection H as _ _ <-; simpl;
      now rewrite filter_app, Hq, app_nil_r.
  - intros H. injection H as _ _ <-. reflexivity.
Qed.

Section TickOver.

Variable state : Type.
Variable get_next : state -> world -> outcome (option point * state * world).
Variable b : backend.
Variable step_duration : float.

(** The helper itself moves nothing. *)
Hypothesis helper_moves_nothing :
  forall c w r c' w', get_next c w = Ret (r, c', w') -> moves w' = moves w.

Lemma tick_over_moves (c c' : state) (w w' : world) (r : bool) :
  tick_over state get_next b step_duration c w = Ret (r, c', w') ->
  if r
  then exists x y, moves w' = moves w ++ [move_to b x y step_duration] /\
                   pointer w' = (x, y)
  else moves w' = moves w.
Proof.
  unfold tick_over.
  destruct (get_next c w) as [[[[[x y]|] c1] w1]|e|] eqn:Hg; try discriminate.
  - intros H. injection H as <- _ <-. exists x, y. unfold moves. simpl.
    rewrite filter_app. simpl. rewrite move_to_is_move.
    split; [|reflexivity]. f_equal.
    exact (helper_moves_nothing c w (Some (x, y)) c1 w1 Hg).
  - intros H. injection H as <- _ <-.
    exact (helper_moves_nothing c w None c1 w1 Hg).
Qed.

(** X6.  Whatever [_get_next_point] is, as long as it moves nothing itself:
    over any number of [tick]s in a row, the moves of the pointer made are
    one for each [True] answered and none for a [False], each through the
    move primitive of the class with the [step_duration] passed in. *)
Theorem one_move_per_true (n : nat) (c c' : state) (w w' : world)
    (rs : list bool) :
  ticks_over state get_next b step_duration n c w = Ret (rs, c', w') ->
  exists added,
    moves w' = moves w ++ added /\
    length added = trues rs /\
    length rs = n /\
    Forall (fun m => exists x y, m = move_to b x y step_duration) added.
Proof.
  revert c w rs. induction n as [|n IH]; intros c w rs; simpl.
  - intros H. injection H as <- _ <-. exists []. rewrite app_nil_r.
    repeat split. constructor.
  - destruct (tick_over state get_next b step_duration c w)
      as [[[r c1] w1]|e|] eqn:Ht; try discriminate.
    destruct (ticks_over state get_next b step_duration n c1 w1)
      as [[[rs1 c2] w2]|e|] eqn:Hts; try discriminate.
    intros H. injection H as <- <- <-.
    destruct (IH c1 w1 rs1 Hts) as (added & Hm & Hl & Hn & Hall).
    apply tick_over_moves in Ht. destruct r.
    + destruct Ht as (x & y & Hm1 & _).
      exists (move_to b x y step_duration :: added).
      rewrite Hm, Hm1, <- app_assoc. unfold trues in *. simpl.
      repeat split; try lia. constructor; [now exists x, y | exact Hall].
    + exists added. rewrite Hm, Ht. unfold trues in *. simpl.
      repeat split; try lia. exact Hall.
Qed.

End TickOver.

Lemma one_move_per_true_witness :
  exists c' w' added,
    ticks (fun _ => 0.25) Pyautogui 0.5 10 4 short_trip quiet_world
    = Ret ([true; true; true; false], c', w') /\
    moves w' = moves quiet_world ++ added /\
    length added = 3%nat.
Proof.
  destruct (ticks (fun _ => 0.25) Pyautogui 0.5 10 4 short_trip quiet_world)
    as [[[rs c'] w']|e|] eqn:Hts;
    [|vm_compute in Hts; discriminate|vm_compute in Hts; discriminate].
  assert (Hrs : rs = [true; true; true; false])
    by (vm_compute in Hts; now injection Hts as <- _ _).
  rewrite ticks_is_ticks_over in Hts.
  destruct (one_move_per_true controller
              (get_next_point (fun _ => 0.25) Pyautogui 10) Pyautogui 0.5
              (get_next_point_no_move (fun _ => 0.25) Pyautogui 10)
              4 short_trip c' quiet_world w' rs Hts)
    as (added & Hm & Hl & _ & _).
  exists c', w', added. subst rs. repeat split; assumption.
Defined.

Section Buttons.

Variable V : Type.
Variable V_eq_dec : forall x y : V, {x = y} + {x <> y}.
Variable value : HoldMouseButton -> V.

Lemma key_eqb_refl (q : key V) : key_eqb V V_eq_dec q q = true.
Proof.
  destruct q as [s|v]; simpl; [apply String.eqb_refl|].
  destruct (V_eq_dec v v); congruence.
Qed.

Lemma held_app (h : bool) (t u : list (button_call V)) (q : key V) :
  held V V_eq_dec h (t ++ u) q = held V V_eq_dec (held V V_eq_dec h t q) u q.
Proof. unfold held. apply fold_left_app. Qed.

(** A call that presses [k] followed by one that lets go of [k]. *)
Lemma held_press_release (h : bool) (t : list (button_call V))
    (down up : button_call V) (k q : key V) :
  effect down = Some (k, true) -> effect up = Some (k, false) ->
  held V V_eq_dec h (t ++ [down]) k = true /\
  held V V_eq_dec h (t ++ [down] ++ [up]) q
  = if key_eqb V V_eq_dec k q then false else held V V_eq_dec h t q.
Proof.
  intros Hd Hu. rewrite !held_app. unfold held at 1 3 4. cbn [fold_left].
  rewrite Hd, Hu, key_eqb_refl. split; [reflexivity|].
  destruct (key_eqb V V_eq_dec k q); reflexivity.
Qed.

(** X7.  In both leaf classes releasing a button undoes holding it and
    touches no other button: [_hold_mouse_button] and [_release_mouse_button]
    name the same button (pyautogui by "left", "right", "middle", one name a
    member; AHK by the member's value, with directions "D" and "U"), so after
    hold the button is down, and after hold then release it is up and every
    other button is as it was. *)
Theorem release_undoes_hold (h : bool) (t : list (button_call V))
    (button : HoldMouseButton) :
  (@pyautogui_hold_mouse_button V button
   = [PyautoguiMouseDown (pyautogui_name button)] /\
   @pyautogui_release_mouse_button V button
   = [PyautoguiMouseUp (pyautogui_name button)] /\
   (forall other, pyautogui_name other = pyautogui_name button ->
                  other = button)) /\
  (let q := PyautoguiButton (pyautogui_name button) in
   held V V_eq_dec h (t ++ pyautogui_hold_mouse_button button) q = true /\
   forall q',
     held V V_eq_dec h
       (t ++ pyautogui_hold_mouse_button button
          ++ pyautogui_release_mouse_button button) q'
     = if key_eqb V V_eq_dec q q' then false else held V V_eq_dec h t q') /\
  (let q := AhkButton (value button) in
   held V V_eq_dec h (t ++ ahk_hold_mouse_button V value button) q = true /\
   forall q',
     held V V_eq_dec h
       (t ++ ahk_hold_mouse_button V value button
          ++ ahk_release_mouse_button V value button) q'
     = if key_eqb V V_eq_dec q q' then false else held V V_eq_dec h t q').
Proof.
  assert (Hnames :
    @pyautogui_hold_mouse_button V button
    = [PyautoguiMouseDown (pyautogui_name button)] /\
    @pyautogui_release_mouse_button V button
    = [PyautoguiMouseUp (pyautogui_name button)] /\
    (forall other, pyautogui_name other = pyautogui_name button ->
                   other = button)).
  { destruct button; repeat split; intros other; destruct other;
      (reflexivity || discriminate). }
  split; [exact Hnames|]. destruct Hnames as (Hh & Hr & _).
  split; cbv zeta.
  - rewrite Hh, Hr.
    split; [|intros q'];
      apply (held_press_release h t
               (PyautoguiMouseDown (pyautogui_name button))
               (PyautoguiMouseUp (pyautogui_name button))
               (PyautoguiButton (pyautogui_name button))
               (PyautoguiButton (pyautogui_name button)) eq_refl eq_refl)
      || apply (held_press_release h t
               (PyautoguiMouseDown (pyautogui_name button))
               (PyautoguiMouseUp (pyautogui_name button))
               (PyautoguiButton (pyautogui_name button)) q' eq_refl eq_refl).
  - unfold ahk_hold_mouse_button, ahk_release_mouse_button.
    split; [|intros q'];
      apply (held_press_release h t
               (AhkClick (value button) "D")
               (AhkClick (value button) "U")
               (AhkButton (value button))
               (AhkButton (value button)) eq_refl eq_refl)
      || apply (held_press_release h t
               (AhkClick (value button) "D")
               (AhkClick (value button) "U")
               (AhkButton (value button)) q' eq_refl eq_refl).
Qed.

End Buttons.

(* ===================================================================== *)
(** * These theorems at concrete inputs *)
(* ===================================================================== *)

Lemma first_point_is_not_start_witness :
  exists ps e,
    collect (fun _ => 0.5) 10 (wind_mouse 0 0 3 0 0.25 0 15 1) 0
    = ((1, 0)%Z :: ps, e) /\
    (1, 0)%Z <> (0, 0)%Z.
Proof.
  eexists. eexists. split.
  - vm_compute. reflexivity.
  - eapply (first_point_is_not_start (fun _ => 0.5) 0 0 3 0 0.25 0 15 1 10 0).
    vm_compute. reflexivity.
Defined.

Lemma next_after_fractional_yield_witness :
  exists fr k,
    resume (fun _ => 0.25) 10 trip_frame 0 = Yield (4, 0)%Z (Suspended fr) k /\
    (forall fr' k', body (fun _ => 0.25) fr k <> Silent fr' k') /\
    (forall fuel, next (fun _ => 0.25) (S fuel) (Suspended fr) k
                  = next (fun _ => 0.25) 1 (Suspended fr) k).
Proof.
  eexists. eexists. split.
  - vm_compute. reflexivity.
  - eapply (next_after_fractional_yield (fun _ => 0.25) 10 trip_frame _ 0 _
              (4, 0)%Z); vm_compute; reflexivity.
Defined.

Lemma nan_gravity_raises_witness :
  next (fun _ => 0.5) 1 (wind_mouse 0 0 10 0 nan 3 15 12) 0 = Throw ValueError.
Proof.
  apply (nan_gravity_raises (fun _ => 0.5) 0 0 10 0 nan 3 15 12 0 0);
    vm_compute; reflexivity.
Defined.

Lemma nan_max_step_never_clips_witness :
  exists fr' k',
    after (body (fun _ => 0.25) unclipped_frame 0) = Some (fr', k') /\
    is_nan (max_step fr') = true /\
    velocity_x fr' = 0 + (wind_x fr' + 9 * to_float (int_sub 100 (Int 0))
                                       / dist unclipped_frame) /\
    velocity_y fr' = 0 + (wind_y fr' + 9 * to_float (int_sub 0 (Int 0))
                                       / dist unclipped_frame).
Proof.
  eexists. eexists. split.
  - vm_compute. reflexivity.
  - eapply (nan_max_step_never_clips (fun _ => 0.25)
              unclipped_frame unclipped_frame _ 0 0).
    + vm_compute. reflexivity.
    + apply reaches_here.
    + vm_compute. reflexivity.
Defined.
